(** * avail-js SDK facade: [SDK] and [Account]

    A shallow embedding of [avail-js/src/sdk/index.ts] and
    [avail-js/src/sdk/account.ts].  JavaScript objects with optional fields
    are finite maps keyed by field name, promises are computations over the
    state of the outside world which settle with a value, settle with a
    thrown fault, or never settle, and the mutable fields of an [Account]
    are threaded explicitly. *)

From stdpp Require Import base option gmap strings list.

Local Open Scope Z_scope.
Local Open Scope string_scope.

(** ** Values shared by every component *)

(** [BN] of [@polkadot/util]: an arbitrary-precision integer. *)
Definition BN : Type := Z.

(** [new BN(a).pow(new BN(b))]. *)
Definition BN_pow (a b : BN) : BN := a ^ b.

(** [H256]: a 256-bit hash, kept as its numeric value. *)
Definition H256 : Type := N.

(** [WaitFor] of [./transactions]; [account.ts] names [WaitFor.BlockInclusion],
    the other member is the finalization policy. *)
Inductive WaitFor : Type :=
  | BlockInclusion
  | BlockFinalization.

(** [KeyringPair]: the signer; the facade reads [keyring.address] only. *)
Record KeyringPair : Type := mkKeyringPair {
  address : string;
  suri : string
}.

(** [string | Bytes], the argument of [submitData]. *)
Inductive Data : Type :=
  | DataString (s : string)
  | DataBytes (b : list Byte.byte).

(** [Result<T, E>] of [neverthrow]: a value is an [Ok] or an [Err]. *)
Inductive Result (T E : Type) : Type :=
  | Ok (value : T)
  | Err (error : E).
Arguments Ok {T E} value.
Arguments Err {T E} error.

Definition isOk {T E} (r : Result T E) : bool :=
  match r with Ok _ => true | Err _ => false end.

Definition isErr {T E} (r : Result T E) : bool :=
  match r with Ok _ => false | Err _ => true end.

(** What a rejected promise carries. *)
Inductive Fault : Type :=
  | ConnectionError (msg : string)
  | EncodingError (msg : string)
  | Thrown (msg : string).

(** How a promise ends: fulfilled, rejected, or never settled. *)
Inductive Outcome (A : Type) : Type :=
  | Resolved (a : A)
  | Rejected (e : Fault)
  | Pending.
Arguments Resolved {A} a.
Arguments Rejected {A} e.
Arguments Pending {A}.

(** An event decoded from a block: its kind (pallet and name) and its
    named fields. *)
Record EventKind : Type := mkEventKind {
  pallet : string;
  variant : string
}.

Global Instance EventKind_eq_dec : EqDecision EventKind.
Proof. solve_decision. Defined.

Record Event : Type := mkEvent {
  kind : EventKind;
  fields : list (string * string)
}.

(** [TxResultDetails]: what a confirmed transaction reports
    ([tx.details.blockHash] in [cookbook/src/blocks/fetching.ts]). *)
Record TxResultDetails : Type := mkTxResultDetails {
  blockHash : H256;
  txHash : H256;
  events : list Event
}.

(** The three success classes; each carries [details]. *)
Record TransferKeepAliveTx : Type := mkTransferKeepAliveTx {
  transfer_details : TxResultDetails
}.

Record SubmitDataTx : Type := mkSubmitDataTx {
  submit_details : TxResultDetails
}.

Record CreateApplicationKeyTx : Type := mkCreateApplicationKeyTx {
  create_details : TxResultDetails
}.

(** [TransactionFailed]: [result.error.reason], and the hashes known when
    the failure was observed. *)
Record TransactionFailed : Type := mkTransactionFailed {
  reason : string;
  failed_txHash : option H256;
  failed_blockHash : option H256
}.

(** [AccountBalance] of [account.ts]. *)
Record AccountBalance : Type := mkAccountBalance {
  free : BN;
  reserved : BN;
  frozen : BN;
  flags : BN
}.

(** The answer of [api.query.system.account]; [getBalance] reads [r.data]. *)
Record AccountInfo : Type := mkAccountInfo {
  data : AccountBalance
}.

(** ** The facade *)

Section Facade.

(** [number] is the JavaScript number type, which the facade stores and
    forwards without computing on it; [World] is the state of everything
    behind the connection; [ApiPromise] and [Utils] are the classes of
    [@polkadot/api] and [./utils]. *)
Variables (number World ApiPromise Utils : Type).

(** A value of a [TransactionOptions] field: [nonce] and [app_id] hold a
    number, [tip] holds a [BN]. *)
Inductive OptionValue : Type :=
  | ONumber (n : number)
  | OBN (b : BN).

(** [TransactionOptions]: an object whose fields [nonce], [app_id] and
    [tip] are each present or absent. *)
Abbreviation TransactionOptions := (gmap string OptionValue).

(** An asynchronous computation: run against the world, it yields how its
    promise ends and the world it leaves. *)
Definition Async (A : Type) : Type := World -> Outcome A * World.

Definition Async_ret {A} (a : A) : Async A := fun w => (Resolved a, w).

(** [await p] followed by the rest of the [async] function: a rejection or
    a promise that never settles ends the caller the same way. *)
Definition Async_bind {A B} (k : A -> Async B) (p : Async A) : Async B :=
  fun w =>
    match p w with
    | (Resolved a, w') => k a w'
    | (Rejected e, w') => (Rejected e, w')
    | (Pending, w') => (Pending, w')
    end.

(** [sdk.tx.balances]. *)
Record Balances : Type := mkBalances {
  transferKeepAlive :
    string -> BN -> WaitFor -> KeyringPair -> TransactionOptions ->
    Async (Result TransferKeepAliveTx TransactionFailed);
  transferKeepAliveNoWait :
    string -> BN -> KeyringPair -> TransactionOptions -> Async H256
}.

(** [sdk.tx.dataAvailability]. *)
Record DataAvailability : Type := mkDataAvailability {
  submitData :
    Data -> WaitFor -> KeyringPair -> TransactionOptions ->
    Async (Result SubmitDataTx TransactionFailed);
  submitDataNoWait :
    Data -> KeyringPair -> TransactionOptions -> Async H256;
  createApplicationKey :
    string -> WaitFor -> KeyringPair -> TransactionOptions ->
    Async (Result CreateApplicationKeyTx TransactionFailed);
  createApplicationKeyNoWait :
    string -> KeyringPair -> TransactionOptions -> Async H256
}.

(** [Transactions]: the object behind [sdk.tx]. *)
Record Transactions : Type := mkTransactions {
  balances : Balances;
  dataAvailability : DataAvailability
}.

(** What [index.ts] and [account.ts] import and call but do not define:
    [initialize] of [../chain], the constructors of [Transactions] and
    [Utils], the storage query of the connection, and the functions of
    [sdkUtil]. *)
Record Imports : Type := mkImports {
  initialize : string -> Async ApiPromise;
  Transactions_new : ApiPromise -> Transactions;
  Utils_new : ApiPromise -> Utils;
  query_system_account : ApiPromise -> string -> Async AccountInfo;
  sdkUtil_getNonceState : ApiPromise -> string -> Async number;
  sdkUtil_getNonceNode : ApiPromise -> string -> Async number;
  sdkUtil_getAppKeys : ApiPromise -> string -> Async (list (string * number));
  sdkUtil_getAppIds : ApiPromise -> string -> Async (list number)
}.

Variable imports : Imports.

(** *** [class SDK] *)

Record SDK : Type := mkSDK {
  api : ApiPromise;
  tx : Transactions;
  util : Utils
}.

(** [private constructor(api)]. *)
Definition SDK_constructor (api0 : ApiPromise) : SDK :=
  {| api := api0;
     tx := Transactions_new imports api0;
     util := Utils_new imports api0 |}.

(** [static async New(endpoint)]. *)
Definition SDK_New (endpoint : string) : Async SDK :=
  Async_bind (fun api0 => Async_ret (SDK_constructor api0))
             (initialize imports endpoint).

(** [static oneAvail()]. *)
Definition SDK_oneAvail : BN := BN_pow 10 18.

(** *** [class Account] *)

Record Account : Type := mkAccount {
  waitFor : WaitFor;
  nonce : option number;
  appId : option number;
  tip : option BN;
  sdk : SDK;
  keyring : KeyringPair
}.

(** [constructor(public sdk, public keyring)] with the field initializers. *)
Definition Account_constructor (sdk0 : SDK) (keyring0 : KeyringPair) : Account :=
  {| waitFor := BlockInclusion;
     nonce := None;
     appId := None;
     tip := None;
     sdk := sdk0;
     keyring := keyring0 |}.

Definition setNonce (value : option number) (this : Account) : Account :=
  {| waitFor := waitFor this; nonce := value; appId := appId this;
     tip := tip this; sdk := sdk this; keyring := keyring this |}.

Definition setAppId (value : option number) (this : Account) : Account :=
  {| waitFor := waitFor this; nonce := nonce this; appId := value;
     tip := tip this; sdk := sdk this; keyring := keyring this |}.

Definition setTip (value : option BN) (this : Account) : Account :=
  {| waitFor := waitFor this; nonce := nonce this; appId := appId this;
     tip := value; sdk := sdk this; keyring := keyring this |}.

Definition setWaitFor (value : WaitFor) (this : Account) : Account :=
  {| waitFor := value; nonce := nonce this; appId := appId this;
     tip := tip this; sdk := sdk this; keyring := keyring this |}.

Definition Account_address (this : Account) : string :=
  address (keyring this).

(** [private buildOptions()]: starts from [{}] and assigns each field whose
    stored default is not [null]. *)
Definition buildOptions (this : Account) : TransactionOptions :=
  let options : TransactionOptions := ∅ in
  let options :=
    match nonce this with
    | Some n => <["nonce" := ONumber n]> options
    | None => options
    end in
  let options :=
    match appId this with
    | Some n => <["app_id" := ONumber n]> options
    | None => options
    end in
  let options :=
    match tip this with
    | Some t => <["tip" := OBN t]> options
    | None => options
    end in
  options.

Definition balanceTransfer (this : Account) (dest : string) (value : BN)
  : Async (Result TransferKeepAliveTx TransactionFailed) :=
  Async_bind Async_ret
    (transferKeepAlive (balances (tx (sdk this)))
       dest value (waitFor this) (keyring this) (buildOptions this)).

Definition balanceTransferNoWait (this : Account) (dest : string) (value : BN)
  : Async H256 :=
  Async_bind Async_ret
    (transferKeepAliveNoWait (balances (tx (sdk this)))
       dest value (keyring this) (buildOptions this)).

Definition Account_submitData (this : Account) (d : Data)
  : Async (Result SubmitDataTx TransactionFailed) :=
  Async_bind Async_ret
    (submitData (dataAvailability (tx (sdk this)))
       d (waitFor this) (keyring this) (buildOptions this)).

Definition Account_submitDataNoWait (this : Account) (d : Data) : Async H256 :=
  Async_bind Async_ret
    (submitDataNoWait (dataAvailability (tx (sdk this)))
       d (keyring this) (buildOptions this)).

Definition Account_createApplicationKey (this : Account) (key : string)
  : Async (Result CreateApplicationKeyTx TransactionFailed) :=
  Async_bind Async_ret
    (createApplicationKey (dataAvailability (tx (sdk this)))
       key (waitFor this) (keyring this) (buildOptions this)).

Definition Account_createApplicationKeyNoWait (this : Account) (key : string)
  : Async H256 :=
  Async_bind Async_ret
    (createApplicationKeyNoWait (dataAvailability (tx (sdk this)))
       key (keyring this) (buildOptions this)).

Definition getBalance (this : Account) : Async AccountBalance :=
  Async_bind
    (fun r => Async_ret
       {| free := free (data r); reserved := reserved (data r);
          frozen := frozen (data r); flags := flags (data r) |})
    (query_system_account imports (api (sdk this)) (address (keyring this))).

Definition getNonceState (this : Account) : Async number :=
  Async_bind Async_ret
    (sdkUtil_getNonceState imports (api (sdk this)) (address (keyring this))).

Definition getNonceNode (this : Account) : Async number :=
  Async_bind Async_ret
    (sdkUtil_getNonceNode imports (api (sdk this)) (address (keyring this))).

Definition getAppKeys (this : Account) : Async (list (string * number)) :=
  Async_bind Async_ret
    (sdkUtil_getAppKeys imports (api (sdk this)) (address (keyring this))).

Definition getAppIds (this : Account) : Async (list number) :=
  Async_bind Async_ret
    (sdkUtil_getAppIds imports (api (sdk this)) (address (keyring this))).

Definition Account_oneAvail (this : Account) : BN := SDK_oneAvail.

(** *** The object as a state machine

    A caller holds one [Account] and calls its public methods one after the
    other, awaiting each.  [Method] lists the calls, [Returned] what each
    hands back, and [invoke] runs one call against the instance and the
    world.  Only the four mutators assign to a field of [this]. *)

Inductive Method : Type :=
  | MSetNonce (value : option number)
  | MSetAppId (value : option number)
  | MSetTip (value : option BN)
  | MSetWaitFor (value : WaitFor)
  | MAddress
  | MBalanceTransfer (dest : string) (value : BN)
  | MBalanceTransferNoWait (dest : string) (value : BN)
  | MSubmitData (d : Data)
  | MSubmitDataNoWait (d : Data)
  | MCreateApplicationKey (key : string)
  | MCreateApplicationKeyNoWait (key : string)
  | MGetBalance
  | MGetNonceState
  | MGetNonceNode
  | MGetAppKeys
  | MGetAppIds
  | MOneAvail.

Inductive Returned : Type :=
  | RVoid
  | RString (s : string)
  | RBN (b : BN)
  | RTransfer (o : Outcome (Result TransferKeepAliveTx TransactionFailed))
  | RSubmit (o : Outcome (Result SubmitDataTx TransactionFailed))
  | RCreate (o : Outcome (Result CreateApplicationKeyTx TransactionFailed))
  | RHash (o : Outcome H256)
  | RBalance (o : Outcome AccountBalance)
  | RNumber (o : Outcome number)
  | RAppKeys (o : Outcome (list (string * number)))
  | RAppIds (o : Outcome (list number)).

(** An awaited [async] method: its promise's end, [this] as it was, and the
    world the call leaves. *)
Definition awaited {A} (wrap : Outcome A -> Returned) (p : Async A)
    (this : Account) (w : World) : Returned * Account * World :=
  let '(o, w') := p w in (wrap o, this, w').

Definition invoke (m : Method) (this : Account) (w : World)
  : Returned * Account * World :=
  match m with
  | MSetNonce v => (RVoid, setNonce v this, w)
  | MSetAppId v => (RVoid, setAppId v this, w)
  | MSetTip v => (RVoid, setTip v this, w)
  | MSetWaitFor v => (RVoid, setWaitFor v this, w)
  | MAddress => (RString (Account_address this), this, w)
  | MBalanceTransfer dest value =>
      awaited RTransfer (balanceTransfer this dest value) this w
  | MBalanceTransferNoWait dest value =>
      awaited RHash (balanceTransferNoWait this dest value) this w
  | MSubmitData d => awaited RSubmit (Account_submitData this d) this w
  | MSubmitDataNoWait d =>
      awaited RHash (Account_submitDataNoWait this d) this w
  | MCreateApplicationKey key =>
      awaited RCreate (Account_createApplicationKey this key) this w
  | MCreateApplicationKeyNoWait key =>
      awaited RHash (Account_createApplicationKeyNoWait this key) this w
  | MGetBalance => awaited RBalance (getBalance this) this w
  | MGetNonceState => awaited RNumber (getNonceState this) this w
  | MGetNonceNode => awaited RNumber (getNonceNode this) this w
  | MGetAppKeys => awaited RAppKeys (getAppKeys this) this w
  | MGetAppIds => awaited RAppIds (getAppIds this) this w
  | MOneAvail => (RBN (Account_oneAvail this), this, w)
  end.

(** A session: the calls in order, each on the instance and the world the
    previous one left. *)
Fixpoint invoke_all (ms : list Method) (this : Account) (w : World)
  : Account * World :=
  match ms with
  | [] => (this, w)
  | m :: ms' =>
      let '(_, this', w') := invoke m this w in invoke_all ms' this' w'
  end.

(** The stored defaults, and the one a call assigns (if any). *)
Inductive Default : Type := DNonce | DAppId | DTip | DWaitFor.

Definition assigns (m : Method) : option Default :=
  match m with
  | MSetNonce _ => Some DNonce
  | MSetAppId _ => Some DAppId
  | MSetTip _ => Some DTip
  | MSetWaitFor _ => Some DWaitFor
  | _ => None
  end.

End Facade.

Arguments ONumber {number} n.
Arguments OBN {number} b.
Arguments Async_ret {World A} a.
Arguments Async_bind {World A B} k p.
Arguments transferKeepAlive {number World} _.
Arguments transferKeepAliveNoWait {number World} _.
Arguments submitData {number World} _.
Arguments submitDataNoWait {number World} _.
Arguments createApplicationKey {number World} _.
Arguments createApplicationKeyNoWait {number World} _.
Arguments balances {number World} _.
Arguments dataAvailability {number World} _.
Arguments initialize {number World ApiPromise Utils} _.
Arguments Transactions_new {number World ApiPromise Utils} _.
Arguments Utils_new {number World ApiPromise Utils} _.
Arguments query_system_account {number World ApiPromise Utils} _.
Arguments sdkUtil_getNonceState {number World ApiPromise Utils} _.
Arguments sdkUtil_getNonceNode {number World ApiPromise Utils} _.
Arguments sdkUtil_getAppKeys {number World ApiPromise Utils} _.
Arguments sdkUtil_getAppIds {number World ApiPromise Utils} _.
Arguments api {number World ApiPromise Utils} _.
Arguments tx {number World ApiPromise Utils} _.
Arguments util {number World ApiPromise Utils} _.
Arguments SDK_constructor {number World ApiPromise Utils} imports api0.
Arguments SDK_New {number World ApiPromise Utils} imports endpoint.
Arguments waitFor {number World ApiPromise Utils} _.
Arguments nonce {number World ApiPromise Utils} _.
Arguments appId {number World ApiPromise Utils} _.
Arguments tip {number World ApiPromise Utils} _.
Arguments sdk {number World ApiPromise Utils} _.
Arguments keyring {number World ApiPromise Utils} _.
Arguments Account_constructor {number World ApiPromise Utils} sdk0 keyring0.
Arguments setNonce {number World ApiPromise Utils} value this.
Arguments setAppId {number World ApiPromise Utils} value this.
Arguments setTip {number World ApiPromise Utils} value this.
Arguments setWaitFor {number World ApiPromise Utils} value this.
Arguments Account_address {number World ApiPromise Utils} this.
Arguments buildOptions {number World ApiPromise Utils} this.
Arguments balanceTransfer {number World ApiPromise Utils} this dest value.
Arguments balanceTransferNoWait {number World ApiPromise Utils} this dest value.
Arguments Account_submitData {number World ApiPromise Utils} this d.
Arguments Account_submitDataNoWait {number World ApiPromise Utils} this d.
Arguments Account_createApplicationKey {number World ApiPromise Utils} this key.
Arguments Account_createApplicationKeyNoWait {number World ApiPromise Utils} this key.
Arguments getBalance {number World ApiPromise Utils} imports this.
Arguments getNonceState {number World ApiPromise Utils} imports this.
Arguments getNonceNode {number World ApiPromise Utils} imports this.
Arguments getAppKeys {number World ApiPromise Utils} imports this.
Arguments getAppIds {number World ApiPromise Utils} imports this.
Arguments Account_oneAvail {number World ApiPromise Utils} this.
Arguments invoke {number World ApiPromise Utils} imports m this w.
Arguments invoke_all {number World ApiPromise Utils} imports ms this w.
Arguments assigns {number} m.
Arguments MSetNonce {number} value.
Arguments MSetAppId {number} value.
Arguments MSetTip {number} value.
Arguments MSetWaitFor {number} value.
Arguments MAddress {number}.
Arguments MBalanceTransfer {number} dest value.
Arguments MBalanceTransferNoWait {number} dest value.
Arguments MSubmitData {number} d.
Arguments MSubmitDataNoWait {number} d.
Arguments MCreateApplicationKey {number} key.
Arguments MCreateApplicationKeyNoWait {number} key.
Arguments MGetBalance {number}.
Arguments MGetNonceState {number}.
Arguments MGetNonceNode {number}.
Arguments MGetAppKeys {number}.
Arguments MGetAppIds {number}.
Arguments MOneAvail {number}.
Arguments RVoid {number}.
Arguments RString {number} s.
Arguments RBN {number} b.
Arguments RTransfer {number} o.
Arguments RSubmit {number} o.
Arguments RCreate {number} o.
Arguments RHash {number} o.
Arguments RBalance {number} o.
Arguments RNumber {number} o.
Arguments RAppKeys {number} o.
Arguments RAppIds {number} o.

(** ** The Deno variant of [SDK]

    [avail-deno/src/sdk.ts]: the same class without a [util] component; the
    connection is created in place by [ApiPromise.create]. *)

Module Deno.

(** [new WsProvider(endpoint)]. *)
Record WsProvider : Type := mkWsProvider {
  provider_endpoint : string
}.

Section Facade.

(** [Transactions] is the class of [./transactions.ts]; [Definitions] is
    the type of the tables of [./api_options.ts]. *)
Variables (World ApiPromise Transactions Definitions : Type).

(** The argument of [ApiPromise.create]. *)
Record ApiOptions : Type := mkApiOptions {
  provider : WsProvider;
  rpc : Definitions;
  types : Definitions;
  signedExtensions : Definitions
}.

(** What the file imports and calls but does not define. *)
Record Imports : Type := mkImports {
  ApiPromise_create : ApiOptions -> Async World ApiPromise;
  Transactions_new : ApiPromise -> Transactions;
  API_RPC : Definitions;
  API_TYPES : Definitions;
  API_EXTENSIONS : Definitions
}.

Variable imports : Imports.

Record SDK : Type := mkSDK {
  api : ApiPromise;
  tx : Transactions
}.

(** [private constructor(api)]. *)
Definition SDK_constructor (api0 : ApiPromise) : SDK :=
  {| api := api0; tx := Transactions_new imports api0 |}.

(** The options [New] passes to [ApiPromise.create]. *)
Definition New_options (uri : string) : ApiOptions :=
  {| provider := {| provider_endpoint := uri |};
     rpc := API_RPC imports;
     types := API_TYPES imports;
     signedExtensions := API_EXTENSIONS imports |}.

(** [static async New(endpoint)]. *)
Definition SDK_New (uri : string) : Async World SDK :=
  Async_bind (fun api0 => Async_ret (SDK_constructor api0))
             (ApiPromise_create imports (New_options uri)).

End Facade.

Arguments ApiPromise_create {World ApiPromise Transactions Definitions} _.
Arguments Transactions_new {World ApiPromise Transactions Definitions} _.
Arguments api {ApiPromise Transactions} _.
Arguments tx {ApiPromise Transactions} _.
Arguments SDK_constructor {World ApiPromise Transactions Definitions} imports api0.
Arguments New_options {World ApiPromise Transactions Definitions} imports uri.
Arguments SDK_New {World ApiPromise Transactions Definitions} imports uri.

End Deno.

Abbreviation TransactionOptions number := (gmap string (OptionValue number)).

(** ** The components behind the facade

    [./transactions], [./utils] and [../chain] are not part of the sources
    at hand.  This section gives them the behaviour the specification
    describes, over an explicit state of the node. *)

(** Modelled from the spec: the Connection of section 4.1, which [initialize]
    and [ApiPromise.create] are missing for; a handle on one long-lived
    socket to one endpoint. *)
Record Connection : Type := mkConnection {
  socket : nat;
  endpoint : string
}.

(** Modelled from the spec: the [Utils] class is missing; an instance is
    constructed from the connection and keeps it. *)
Record UtilsHandle : Type := mkUtilsHandle {
  utils_api : Connection
}.

(** Modelled from the spec: the status notifications of section 4.3, which
    the missing tracker subscribes to: not yet decided, included in a block,
    finalized in a block, dropped, invalid. *)
Inductive Status : Type :=
  | StReady
  | StInBlock (block : H256)
  | StFinalized (block : H256)
  | StDropped
  | StInvalid.

(** Modelled from the spec: where the subscription of section 4.3 ends:
    the requested state was reached in a block, or the transaction
    definitively failed. *)
Inductive Terminal : Type :=
  | TReached (block : H256)
  | TFailed (why : string).

(** Modelled from the spec: the argument shapes of the missing builder
    (section 4.2). *)
Inductive Arg : Type :=
  | ArgString (s : string)
  | ArgBN (b : BN)
  | ArgBytes (b : list Byte.byte).

(** Modelled from the spec: the unsigned call descriptor the missing builder
    produces (section 4.2): a pallet/method pair and its arguments. *)
Record EncodedCall : Type := mkEncodedCall {
  call_pallet : string;
  call_method : string;
  call_args : list Arg
}.

(** Modelled from the spec: [build(pallet, method, args)] of section 4.2,
    missing with [./transactions]; the typed wrappers below only pass
    arguments of the expected shape. *)
Definition build (p m : string) (args : list Arg) : EncodedCall :=
  {| call_pallet := p; call_method := m; call_args := args |}.

(** Modelled from the spec: the event-kind lookup of section 4.3
    ([findFirstEvent] is called in the examples, its class is missing):
    the first event of the kind, or the empty indicator. *)
Fixpoint first_of_kind (k : EventKind) (l : list Event) : option Event :=
  match l with
  | [] => None
  | e :: l' => if decide (kind e = k) then Some e else first_of_kind k l'
  end.

(** Modelled from the spec: [findFirstEvent] of the missing details class:
    the lookup above on the decoded events of the transaction. *)
Definition findFirstEvent (k : EventKind) (details : TxResultDetails)
  : option Event :=
  first_of_kind k (events details).

(** The kinds named in the examples and the runtime's failure event. *)
Definition DataSubmitted : EventKind :=
  {| pallet := "dataAvailability"; variant := "DataSubmitted" |}.
Definition ApplicationKeyCreated : EventKind :=
  {| pallet := "dataAvailability"; variant := "ApplicationKeyCreated" |}.
Definition ExtrinsicFailed : EventKind :=
  {| pallet := "system"; variant := "ExtrinsicFailed" |}.

(** Modelled from the spec: the runtime dispatch error of section 4.3, read
    off the events of the transaction. *)
Definition dispatch_error (evs : list Event) : option string :=
  match first_of_kind ExtrinsicFailed evs with
  | Some _ => Some "Runtime dispatch error"
  | None => None
  end.

(** Modelled from the spec: which status ends the wait (section 4.3): the
    requested inclusion or finalization state, or a drop or invalid
    status. *)
Definition terminal (policy : WaitFor) (s : Status) : option Terminal :=
  match s, policy with
  | StDropped, _ => Some (TFailed "Transaction dropped")
  | StInvalid, _ => Some (TFailed "Transaction invalid")
  | StInBlock b, BlockInclusion => Some (TReached b)
  | StFinalized b, BlockFinalization => Some (TReached b)
  | _, _ => None
  end.

(** Modelled from the spec: the wait of section 4.3 over the notifications
    the node delivers, in order; [None] when no terminal status ever comes
    (the subscription then runs indefinitely, section 5). *)
Fixpoint first_terminal (policy : WaitFor) (l : list Status)
  : option Terminal :=
  match l with
  | [] => None
  | s :: l' =>
      match terminal policy s with
      | Some t => Some t
      | None => first_terminal policy l'
      end
  end.

Section Components.

Variable number : Type.

(** Signing and hashing are done by [@polkadot/api]: [hash_of] is the hash
    of the call signed by the key pair under the options. *)
Variable hash_of :
  EncodedCall -> KeyringPair -> TransactionOptions number -> H256.

(** Modelled from the spec: the node behind the connection, as far as
    sections 4.1, 4.3 and 4.5 speak of it. *)
Record Chain : Type := mkChain {
  reachable : string -> bool;
  sockets : list nat;
  system_account : string -> AccountInfo;
  runtime_nonce : string -> number;
  pool_nonce : string -> number;
  app_keys : list (string * (string * number));
  notifications : H256 -> list Status;
  block_events : H256 -> H256 -> list Event;
  pool : list H256
}.

(** Modelled from the spec: [initialize] of [../chain] is missing;
    [connect(endpoint)] of section 4.1 fails with a ConnectionError on a
    malformed or unreachable endpoint and otherwise opens and holds one
    socket. *)
Definition connect (uri : string) : Async Chain Connection :=
  fun c =>
    if reachable c uri then
      let s := length (sockets c) in
      (Resolved {| socket := s; endpoint := uri |},
       {| reachable := reachable c; sockets := sockets c ++ [s];
          system_account := system_account c;
          runtime_nonce := runtime_nonce c; pool_nonce := pool_nonce c;
          app_keys := app_keys c; notifications := notifications c;
          block_events := block_events c; pool := pool c |})
    else (Rejected (ConnectionError uri), c).

(** Modelled from the spec: a direct storage query on the connection
    (section 4.5): it reads the state, changes nothing, and fails only when
    the connection is gone. *)
Definition storage_query {A} (read : Chain -> A) (conn : Connection)
  : Async Chain A :=
  fun c =>
    if bool_decide (socket conn ∈ sockets c) then (Resolved (read c), c)
    else (Rejected (ConnectionError (endpoint conn)), c).

(** Modelled from the spec: the Utility Queries of section 4.5, missing with
    [./utils]: the nonce as seen by the runtime state, the nonce as seen by
    the node's pending pool, and the application keys and ids owned by an
    address. *)
Definition util_getNonceState (conn : Connection) (addr : string)
  : Async Chain number :=
  storage_query (fun c => runtime_nonce c addr) conn.

(** Modelled from the spec: the nonce as seen by the node's pending pool
    (section 4.5). *)
Definition util_getNonceNode (conn : Connection) (addr : string)
  : Async Chain number :=
  storage_query (fun c => pool_nonce c addr) conn.

(** Modelled from the spec: the application keys owned by an address, each
    with its id (section 4.5). *)
Definition owned_keys (addr : string) (c : Chain) : list (string * number) :=
  (fun e => (e.1, e.2.2)) <$> filter (fun e => e.2.1 = addr) (app_keys c).

(** Modelled from the spec: the list of application keys owned by an
    address (section 4.5). *)
Definition util_getAppKeys (conn : Connection) (addr : string)
  : Async Chain (list (string * number)) :=
  storage_query (owned_keys addr) conn.

(** Modelled from the spec: the list of application ids owned by an
    address (section 4.5). *)
Definition util_getAppIds (conn : Connection) (addr : string)
  : Async Chain (list number) :=
  storage_query (fun c => snd <$> owned_keys addr c) conn.

(** Modelled from the spec: [api.query.system.account(address)], a direct
    storage query on the connection (section 4.5). *)
Definition system_account_query (conn : Connection) (addr : string)
  : Async Chain AccountInfo :=
  storage_query (fun c => system_account c addr) conn.

(** Modelled from the spec: handing a signed transaction to the node. *)
Definition post (h : H256) (c : Chain) : Chain :=
  {| reachable := reachable c; sockets := sockets c;
     system_account := system_account c;
     runtime_nonce := runtime_nonce c; pool_nonce := pool_nonce c;
     app_keys := app_keys c; notifications := notifications c;
     block_events := block_events c; pool := pool c ++ [h] |}.

(** Modelled from the spec: [submit] of section 4.3 under a waiting policy.
    It signs and submits once, waits for the first terminal status, and on
    success reads the events of the transaction from the containing block. *)
Definition submit (call : EncodedCall) (kp : KeyringPair)
    (options : TransactionOptions number) (policy : WaitFor)
  : Async Chain (Result TxResultDetails TransactionFailed) :=
  fun c =>
    let h := hash_of call kp options in
    let c' := post h c in
    match first_terminal policy (notifications c h) with
    | None => (Pending, c')
    | Some (TFailed why) =>
        (Resolved (Err {| reason := why; failed_txHash := Some h;
                          failed_blockHash := None |}), c')
    | Some (TReached b) =>
        let evs := block_events c b h in
        match dispatch_error evs with
        | Some why =>
            (Resolved (Err {| reason := why; failed_txHash := Some h;
                              failed_blockHash := Some b |}), c')
        | None =>
            (Resolved (Ok {| blockHash := b; txHash := h; events := evs |}),
             c')
        end
    end.

(** Modelled from the spec: [submit] of section 4.3 under the no-wait
    policy: the submission hash, at once. *)
Definition submit_no_wait (call : EncodedCall) (kp : KeyringPair)
    (options : TransactionOptions number) : Async Chain H256 :=
  fun c =>
    let h := hash_of call kp options in (Resolved h, post h c).

(** Modelled from the spec: the success value of a method wraps the details
    of the transaction; a failure passes through. *)
Definition map_ok {A B E} (f : A -> B) (r : Result A E) : Result B E :=
  match r with
  | Ok a => Ok (f a)
  | Err e => Err e
  end.

(** Modelled from the spec: the argument of the submit-data call, in the
    shape it was given. *)
Definition data_arg (d : Data) : Arg :=
  match d with
  | DataString s => ArgString s
  | DataBytes b => ArgBytes b
  end.

(** Modelled from the spec: the missing [Transactions] class: each method
    builds its call (section 4.2) and hands it to the tracker
    (section 4.3). *)
Definition tracker_balances : Balances number Chain :=
  {| transferKeepAlive := fun dest value policy kp options =>
       Async_bind (fun r => Async_ret (map_ok mkTransferKeepAliveTx r))
         (submit (build "balances" "transferKeepAlive"
                    [ArgString dest; ArgBN value]) kp options policy);
     transferKeepAliveNoWait := fun dest value kp options =>
       submit_no_wait (build "balances" "transferKeepAlive"
                         [ArgString dest; ArgBN value]) kp options |}.

(** Modelled from the spec: the data-availability methods of the missing
    [Transactions] class, built the same way. *)
Definition tracker_dataAvailability : DataAvailability number Chain :=
  {| submitData := fun d policy kp options =>
       Async_bind (fun r => Async_ret (map_ok mkSubmitDataTx r))
         (submit (build "dataAvailability" "submitData" [data_arg d])
                 kp options policy);
     submitDataNoWait := fun d kp options =>
       submit_no_wait (build "dataAvailability" "submitData" [data_arg d])
                      kp options;
     createApplicationKey := fun key policy kp options =>
       Async_bind (fun r => Async_ret (map_ok mkCreateApplicationKeyTx r))
         (submit (build "dataAvailability" "createApplicationKey"
                    [ArgString key]) kp options policy);
     createApplicationKeyNoWait := fun key kp options =>
       submit_no_wait (build "dataAvailability" "createApplicationKey"
                         [ArgString key]) kp options |}.

(** Modelled from the spec: [new Transactions(api)], missing with
    [./transactions]. *)
Definition tracker_transactions (conn : Connection)
  : Transactions number Chain :=
  {| balances := tracker_balances;
     dataAvailability := tracker_dataAvailability |}.

(** Modelled from the spec: everything the facade imports, as sections 4.1
    to 4.5 describe it. *)
Definition spec_imports : Imports number Chain Connection UtilsHandle :=
  {| initialize := connect;
     Transactions_new := tracker_transactions;
     Utils_new := mkUtilsHandle;
     query_system_account := system_account_query;
     sdkUtil_getNonceState := util_getNonceState;
     sdkUtil_getNonceNode := util_getNonceNode;
     sdkUtil_getAppKeys := util_getAppKeys;
     sdkUtil_getAppIds := util_getAppIds |}.

End Components.

Arguments reachable {number} _.
Arguments sockets {number} _.
Arguments system_account {number} _.
Arguments runtime_nonce {number} _.
Arguments pool_nonce {number} _.
Arguments app_keys {number} _.
Arguments notifications {number} _.
Arguments block_events {number} _.
Arguments pool {number} _.
Arguments connect {number} uri.
Arguments storage_query {number A} read conn.
Arguments util_getNonceState {number} conn addr.
Arguments util_getNonceNode {number} conn addr.
Arguments owned_keys {number} addr c.
Arguments util_getAppKeys {number} conn addr.
Arguments util_getAppIds {number} conn addr.
Arguments system_account_query {number} conn addr.
Arguments post {number} h c.
Arguments submit {number} hash_of call kp options policy.
Arguments submit_no_wait {number} hash_of call kp options.
Arguments tracker_balances {number} hash_of.
Arguments tracker_dataAvailability {number} hash_of.
Arguments tracker_transactions {number} hash_of conn.
Arguments spec_imports {number} hash_of.

(** ** What the specification says [buildOptions] hands over

    "options contains exactly the stored nonce/app_id/tip fields that are
    non-null": the field [k] of the options is the stored default of that
    name, and no other field exists. *)
Definition stored_field {number World ApiPromise Utils}
    (this : Account number World ApiPromise Utils) (k : string)
  : option (OptionValue number) :=
  if decide (k = "nonce") then ONumber <$> nonce this
  else if decide (k = "app_id") then ONumber <$> appId this
  else if decide (k = "tip") then OBN <$> tip this
  else None.

(** The five read-only calls of an [Account]. *)
Definition is_query {number} (m : Method number) : bool :=
  match m with
  | MGetBalance | MGetNonceState | MGetNonceNode
  | MGetAppKeys | MGetAppIds => true
  | _ => false
  end.

(** The fault a call ended with, if it was rejected. *)
Definition fault_of {number} (r : Returned number) : option Fault :=
  let rejected {A} (o : Outcome A) :=
    match o with Rejected e => Some e | _ => None end in
  match r with
  | RTransfer o => rejected o
  | RSubmit o => rejected o
  | RCreate o => rejected o
  | RHash o => rejected o
  | RBalance o => rejected o
  | RNumber o => rejected o
  | RAppKeys o => rejected o
  | RAppIds o => rejected o
  | _ => None
  end.

(** Whether a call handed back a promise that never settles. *)
Definition unsettled {number} (r : Returned number) : bool :=
  let pending {A} (o : Outcome A) :=
    match o with Pending => true | _ => false end in
  match r with
  | RTransfer o => pending o
  | RSubmit o => pending o
  | RCreate o => pending o
  | RHash o => pending o
  | RBalance o => pending o
  | RNumber o => pending o
  | RAppKeys o => pending o
  | RAppIds o => pending o
  | _ => false
  end.

(** A settled submission is explicit: fulfilled with a [Result] that is a
    success or a failure and not both; a promise still waiting says
    nothing; a rejection is an uncaught fault. *)
Definition explicit_outcome {T E} (o : Outcome (Result T E)) : Prop :=
  match o with
  | Resolved r => xorb (isOk r) (isErr r) = true
  | Rejected _ => False
  | Pending => True
  end.

(** A promise that was fulfilled. *)
Definition fulfilled {A} (o : Outcome A) : Prop := exists r, o = Resolved r.

(** ** A local node, for worked examples

    Alice on the local endpoint of the examples, a node that includes every
    transaction in block 7 and finalizes it there, and whose blocks report
    one "data submitted" event per transaction. *)

Definition local_endpoint : string := "ws://127.0.0.1:9944".

Definition alice : KeyringPair :=
  {| address := "5GrwvaEF5zXb26Fz9rcQpDWS57CtERHpNehXCPcNoHGKutQY";
     suri := "//Alice" |}.

Definition demo_hash (call : EncodedCall) (kp : KeyringPair)
    (options : TransactionOptions Z) : H256 :=
  N.of_nat (String.length (call_method call) + length (call_args call)).

Definition demo_event : Event :=
  {| kind := DataSubmitted; fields := [("who", "alice")] |}.

Definition demo_success : Event :=
  {| kind := {| pallet := "system"; variant := "ExtrinsicSuccess" |};
     fields := [] |}.

Definition demo_chain : Chain Z :=
  {| reachable := fun uri => bool_decide (uri = local_endpoint);
     sockets := [0%nat];
     system_account := fun _ =>
       {| data := {| free := 5; reserved := 1; frozen := 0; flags := 0 |} |};
     runtime_nonce := fun _ => 3;
     pool_nonce := fun _ => 4;
     app_keys := [("My Key", (address alice, 1)); ("other", ("bob", 2))];
     notifications := fun _ => [StReady; StInBlock 7%N; StFinalized 7%N];
     block_events := fun _ _ => [demo_success; demo_event];
     pool := [] |}.

(** The same node when it never reports on a transaction. *)
Definition silent_chain : Chain Z :=
  {| reachable := reachable demo_chain; sockets := sockets demo_chain;
     system_account := system_account demo_chain;
     runtime_nonce := runtime_nonce demo_chain;
     pool_nonce := pool_nonce demo_chain;
     app_keys := app_keys demo_chain;
     notifications := fun _ => [StReady];
     block_events := block_events demo_chain;
     pool := [] |}.

Definition demo_conn : Connection :=
  {| socket := 0; endpoint := local_endpoint |}.

Definition demo_sdk : SDK Z (Chain Z) Connection UtilsHandle :=
  SDK_constructor (spec_imports demo_hash) demo_conn.

Definition demo_account : Account Z (Chain Z) Connection UtilsHandle :=
  Account_constructor demo_sdk alice.

Definition demo_details : TxResultDetails :=
  {| blockHash := 7%N; txHash := 11%N; events := [demo_success; demo_event] |}.

(** ** [Account.alice] and what a caller can observe of an [Account] *)

(** [new Keyring({ type })] of [@polkadot/api]. *)
Record Keyring : Type := mkKeyring {
  keyring_type : string
}.

Section Alice.

Variables (number World ApiPromise Utils : Type).

(** [keyring.addFromUri(suri)] of [@polkadot/api]: the key pair derived
    from a secret URI. *)
Variable addFromUri : Keyring -> string -> KeyringPair.

(** [static alice(sdk)]. *)
Definition Account_alice (sdk0 : SDK number World ApiPromise Utils)
  : Account number World ApiPromise Utils :=
  Account_constructor sdk0
    (addFromUri {| keyring_type := "sr25519" |} "//Alice").

End Alice.

Arguments Account_alice {number World ApiPromise Utils} addFromUri sdk0.

(** [options.nonce] and [options.app_id] as a consumer of the options
    object reads them: the number stored under the key, if there is one. *)
Definition read_number {number} (options : TransactionOptions number)
    (k : string) : option number :=
  match options !! k with
  | Some (ONumber n) => Some n
  | _ => None
  end.

(** [options.tip] as a consumer reads it. *)
Definition read_BN {number} (options : TransactionOptions number)
    (k : string) : option BN :=
  match options !! k with
  | Some (OBN b) => Some b
  | _ => None
  end.

(** The names of the stored defaults that are not [null]. *)
Definition option_keys {number World ApiPromise Utils}
    (this : Account number World ApiPromise Utils) : gset string :=
  match nonce this with Some _ => {["nonce"]} | None => ∅ end ∪
  match appId this with Some _ => {["app_id"]} | None => ∅ end ∪
  match tip this with Some _ => {["tip"]} | None => ∅ end.

(** How many stored defaults are not [null]. *)
Definition option_count {number World ApiPromise Utils}
    (this : Account number World ApiPromise Utils) : nat :=
  (match nonce this with Some _ => 1 | None => 0 end +
   match appId this with Some _ => 1 | None => 0 end +
   match tip this with Some _ => 1 | None => 0 end)%nat.

(** The effect of one call on the instance when only the assignments of
    the four setters are carried out. *)
Definition replay_one {number World ApiPromise Utils} (m : Method number)
    (this : Account number World ApiPromise Utils)
  : Account number World ApiPromise Utils :=
  match m with
  | MSetNonce v => setNonce v this
  | MSetAppId v => setAppId v this
  | MSetTip v => setTip v this
  | MSetWaitFor v => setWaitFor v this
  | _ => this
  end.

(** The setters of a session, applied in order. *)
Definition replay {number World ApiPromise Utils} (ms : list (Method number))
    (this : Account number World ApiPromise Utils)
  : Account number World ApiPromise Utils :=
  fold_left (fun acc m => replay_one m acc) ms this.

(** ** Properties of the facade *)

Section FacadeFacts.

Context {number World ApiPromise Utils : Type}.
Variable imports : Imports number World ApiPromise Utils.

Implicit Types (this a : Account number World ApiPromise Utils).
Implicit Types (w : World) (ms : list (Method number)).

(** [return await p] ends the way [p] ends. *)
Lemma Async_bind_ret {A} (p : Async World A) w :
  Async_bind Async_ret p w = p w.
Proof.
  unfold Async_bind, Async_ret.
  destruct (p w) as [[r | e | ] w']; reflexivity.
Qed.

(** [buildOptions] field by field. *)
Lemma buildOptions_lookup a (k : string) :
  buildOptions a !! k = stored_field a k.
Proof.
  unfold buildOptions, stored_field.
  destruct (nonce a) as [n | ], (appId a) as [i | ], (tip a) as [t | ];
    repeat case_decide; simplify_map_eq; reflexivity.
Qed.

Lemma awaited_this {A} (wrap : Outcome A -> Returned number)
    (p : Async World A) a w :
  (awaited number World ApiPromise Utils wrap p a w).1.2 = a.
Proof. unfold awaited. destruct (p w); reflexivity. Qed.

(** One call leaves [sdk] and [keyring] alone, and every stored default
    except the one it assigns. *)
Lemma invoke_frame (m : Method number) a w :
  let a' := (invoke imports m a w).1.2 in
  sdk a' = sdk a /\ keyring a' = keyring a /\
  (assigns m <> Some DNonce -> nonce a' = nonce a) /\
  (assigns m <> Some DAppId -> appId a' = appId a) /\
  (assigns m <> Some DTip -> tip a' = tip a) /\
  (assigns m <> Some DWaitFor -> waitFor a' = waitFor a).
Proof.
  destruct m; cbn [invoke assigns]; rewrite ?awaited_this; cbn;
    repeat split; intros; congruence.
Qed.

Lemma invoke_all_cons (m : Method number) ms a w :
  invoke_all imports (m :: ms) a w =
  invoke_all imports ms (invoke imports m a w).1.2 (invoke imports m a w).2.
Proof.
  cbn [invoke_all]. destruct (invoke imports m a w) as [[r a'] w']. reflexivity.
Qed.

(** A session keeps [sdk] and [keyring]. *)
Lemma invoke_all_sdk ms : forall a w,
  sdk (invoke_all imports ms a w).1 = sdk a /\
  keyring (invoke_all imports ms a w).1 = keyring a.
Proof.
  induction ms as [ | m ms IH]; intros a w; [split; reflexivity | ].
  rewrite invoke_all_cons.
  destruct (invoke_frame m a w) as (Hs & Hk & _).
  destruct (IH (invoke imports m a w).1.2 (invoke imports m a w).2) as [Hs' Hk'].
  split; congruence.
Qed.

(** A session that never assigns a default keeps it. *)
Lemma invoke_all_keeps (d : Default) ms :
  Forall (fun m => assigns m <> Some d) ms ->
  forall a w,
    match d with
    | DNonce => nonce (invoke_all imports ms a w).1 = nonce a
    | DAppId => appId (invoke_all imports ms a w).1 = appId a
    | DTip => tip (invoke_all imports ms a w).1 = tip a
    | DWaitFor => waitFor (invoke_all imports ms a w).1 = waitFor a
    end.
Proof.
  induction 1 as [ | m ms Hm _ IH]; intros a w.
  - destruct d; reflexivity.
  - rewrite invoke_all_cons.
    specialize (IH (invoke imports m a w).1.2 (invoke imports m a w).2).
    destruct (invoke_frame m a w) as (_ & _ & Hn & Hi & Ht & Hw).
    destruct d; rewrite IH; auto.
Qed.

End FacadeFacts.

Section FacadeClaims.

Context {number World ApiPromise Utils : Type}.
Variable imports : Imports number World ApiPromise Utils.

Implicit Types (this a : Account number World ApiPromise Utils).
Implicit Types (w : World) (ms : list (Method number)).

(** C3: each of [setNonce], [setAppId], [setTip] and [setWaitFor] stores its
    argument in its own field and leaves the other three defaults, the
    keyring and the sdk as they were; [buildOptions] then yields the new
    value for that field and the old ones for the others; and the value
    stays in place through every later call on the instance that does not
    assign the same default again, so the operations that follow read it. *)
Theorem setters_overwrite_one_default a w (d : Default) ms
    (Hms : Forall (fun m => assigns m <> Some d) ms) :
  (forall v,
     nonce (setNonce v a) = v /\ appId (setNonce v a) = appId a /\
     tip (setNonce v a) = tip a /\ waitFor (setNonce v a) = waitFor a /\
     keyring (setNonce v a) = keyring a /\ sdk (setNonce v a) = sdk a /\
     buildOptions (setNonce v a) !! "nonce" = ONumber <$> v /\
     (forall k : string, k <> "nonce" ->
        buildOptions (setNonce v a) !! k = buildOptions a !! k)) /\
  (forall v,
     appId (setAppId v a) = v /\ nonce (setAppId v a) = nonce a /\
     tip (setAppId v a) = tip a /\ waitFor (setAppId v a) = waitFor a /\
     keyring (setAppId v a) = keyring a /\ sdk (setAppId v a) = sdk a /\
     buildOptions (setAppId v a) !! "app_id" = ONumber <$> v /\
     (forall k : string, k <> "app_id" ->
        buildOptions (setAppId v a) !! k = buildOptions a !! k)) /\
  (forall v,
     tip (setTip v a) = v /\ nonce (setTip v a) = nonce a /\
     appId (setTip v a) = appId a /\ waitFor (setTip v a) = waitFor a /\
     keyring (setTip v a) = keyring a /\ sdk (setTip v a) = sdk a /\
     buildOptions (setTip v a) !! "tip" = OBN <$> v /\
     (forall k : string, k <> "tip" ->
        buildOptions (setTip v a) !! k = buildOptions a !! k)) /\
  (forall v,
     waitFor (setWaitFor v a) = v /\ nonce (setWaitFor v a) = nonce a /\
     appId (setWaitFor v a) = appId a /\ tip (setWaitFor v a) = tip a /\
     keyring (setWaitFor v a) = keyring a /\ sdk (setWaitFor v a) = sdk a /\
     buildOptions (setWaitFor v a) = buildOptions a) /\
  match d with
  | DNonce => forall v,
      nonce (invoke_all imports ms (setNonce v a) w).1 = v /\
      buildOptions (invoke_all imports ms (setNonce v a) w).1 !! "nonce" =
        ONumber <$> v
  | DAppId => forall v,
      appId (invoke_all imports ms (setAppId v a) w).1 = v /\
      buildOptions (invoke_all imports ms (setAppId v a) w).1 !! "app_id" =
        ONumber <$> v
  | DTip => forall v,
      tip (invoke_all imports ms (setTip v a) w).1 = v /\
      buildOptions (invoke_all imports ms (setTip v a) w).1 !! "tip" =
        OBN <$> v
  | DWaitFor => forall v,
      waitFor (invoke_all imports ms (setWaitFor v a) w).1 = v
  end.
Proof.
  repeat match goal with |- _ /\ _ => split end.
  - intros v. repeat split; try reflexivity.
    + rewrite buildOptions_lookup. reflexivity.
    + intros k Hk. rewrite !buildOptions_lookup. unfold stored_field.
      destruct (decide (k = "nonce")); [contradiction | reflexivity].
  - intros v. repeat split; try reflexivity.
    + rewrite buildOptions_lookup. reflexivity.
    + intros k Hk. rewrite !buildOptions_lookup. unfold stored_field.
      destruct (decide (k = "app_id")); [contradiction | reflexivity].
  - intros v. repeat split; try reflexivity.
    + rewrite buildOptions_lookup. reflexivity.
    + intros k Hk. rewrite !buildOptions_lookup. unfold stored_field.
      destruct (decide (k = "tip")); [contradiction | reflexivity].
  - intros v. repeat split; reflexivity.
  - destruct d; intros v.
    + pose proof (invoke_all_keeps imports DNonce ms Hms (setNonce v a) w)
        as Hk. cbn in Hk.
      split; [exact Hk | ].
      rewrite buildOptions_lookup. unfold stored_field. cbn.
      rewrite Hk. reflexivity.
    + pose proof (invoke_all_keeps imports DAppId ms Hms (setAppId v a) w)
        as Hk. cbn in Hk.
      split; [exact Hk | ].
      rewrite buildOptions_lookup. unfold stored_field. cbn.
      rewrite Hk. reflexivity.
    + pose proof (invoke_all_keeps imports DTip ms Hms (setTip v a) w)
        as Hk. cbn in Hk.
      split; [exact Hk | ].
      rewrite buildOptions_lookup. unfold stored_field. cbn.
      rewrite Hk. reflexivity.
    + exact (invoke_all_keeps imports DWaitFor ms Hms (setWaitFor v a) w).
Qed.

(** C4: every submission of an [Account] ends exactly as the method of the
    transactions component it names, called with the arguments, the stored
    wait policy (for the waiting variants), the keyring, and the options
    built from the stored defaults; those options hold, field by field,
    exactly the stored nonce, app id and tip that are not null.  The
    [Account] methods take no options of their own, so nothing is merged
    over the stored defaults. *)
Theorem account_operations_delegate a (dest key : string) (value : BN)
    (d : Data) w :
  balanceTransfer a dest value w =
    transferKeepAlive (balances (tx (sdk a)))
      dest value (waitFor a) (keyring a) (buildOptions a) w /\
  balanceTransferNoWait a dest value w =
    transferKeepAliveNoWait (balances (tx (sdk a)))
      dest value (keyring a) (buildOptions a) w /\
  Account_submitData a d w =
    submitData (dataAvailability (tx (sdk a)))
      d (waitFor a) (keyring a) (buildOptions a) w /\
  Account_submitDataNoWait a d w =
    submitDataNoWait (dataAvailability (tx (sdk a)))
      d (keyring a) (buildOptions a) w /\
  Account_createApplicationKey a key w =
    createApplicationKey (dataAvailability (tx (sdk a)))
      key (waitFor a) (keyring a) (buildOptions a) w /\
  Account_createApplicationKeyNoWait a key w =
    createApplicationKeyNoWait (dataAvailability (tx (sdk a)))
      key (keyring a) (buildOptions a) w /\
  (forall k : string, buildOptions a !! k = stored_field a k) /\
  dom (buildOptions a) ⊆ ({["nonce"; "app_id"; "tip"]} : gset string).
Proof.
  unfold balanceTransfer, balanceTransferNoWait, Account_submitData,
    Account_submitDataNoWait, Account_createApplicationKey,
    Account_createApplicationKeyNoWait.
  rewrite !Async_bind_ret.
  repeat split.
  - apply buildOptions_lookup.
  - intros k Hk. apply elem_of_dom in Hk as [v Hv].
    rewrite buildOptions_lookup in Hv. unfold stored_field in Hv.
    repeat case_decide; subst; set_solver.
Qed.

(** C8: a freshly constructed [Account] waits for block inclusion and has
    no stored nonce, app id or tip, and its [buildOptions] is the empty
    object: it has no field at all, so none of [nonce], [app_id], [tip]. *)
Theorem fresh_account_defaults (sdk0 : SDK number World ApiPromise Utils)
    (keyring0 : KeyringPair) :
  waitFor (Account_constructor sdk0 keyring0) = BlockInclusion /\
  nonce (Account_constructor sdk0 keyring0) = None /\
  appId (Account_constructor sdk0 keyring0) = None /\
  tip (Account_constructor sdk0 keyring0) = None /\
  sdk (Account_constructor sdk0 keyring0) = sdk0 /\
  keyring (Account_constructor sdk0 keyring0) = keyring0 /\
  buildOptions (Account_constructor sdk0 keyring0) = ∅ /\
  (forall k : string, buildOptions (Account_constructor sdk0 keyring0) !! k = None).
Proof.
  repeat split.
Qed.

(** C9: [SDK.oneAvail()] is the integer 10^18, and [oneAvail()] of any
    [Account] is that same value. *)
Theorem oneAvail_is_ten_to_the_18 a :
  SDK_oneAvail = 1000000000000000000 /\
  SDK_oneAvail = 10 ^ 18 /\
  Account_oneAvail a = SDK_oneAvail.
Proof. repeat split. Qed.

(** C10: [SDK.New(endpoint)] does what one call of [initialize(endpoint)]
    does to the world and nothing more; when that call yields a connection,
    the instance stores it in [api] and constructs both [tx] and [util] from
    that very connection, and when it fails no instance exists.  The Deno
    variant does the same with one call of [ApiPromise.create] and its [api]
    and [tx] (it has no [util]).  No method of an [Account] holding the
    instance replaces it: after any sequence of calls the account refers to
    the same [sdk], hence the same [api], [tx] and [util]. *)
Theorem SDK_New_shares_one_connection (uri : string) w a ms
    {DenoTransactions Definitions : Type}
    (dimports : Deno.Imports World ApiPromise DenoTransactions Definitions) :
  match SDK_New imports uri w with
  | (Resolved s, w') =>
      initialize imports uri w = (Resolved (api s), w') /\
      tx s = Transactions_new imports (api s) /\
      util s = Utils_new imports (api s)
  | (Rejected e, w') => initialize imports uri w = (Rejected e, w')
  | (Pending, w') => initialize imports uri w = (Pending, w')
  end /\
  match Deno.SDK_New dimports uri w with
  | (Resolved s, w') =>
      Deno.ApiPromise_create dimports (Deno.New_options dimports uri) w =
        (Resolved (Deno.api s), w') /\
      Deno.tx s = Deno.Transactions_new dimports (Deno.api s)
  | (Rejected e, w') =>
      Deno.ApiPromise_create dimports (Deno.New_options dimports uri) w =
        (Rejected e, w')
  | (Pending, w') =>
      Deno.ApiPromise_create dimports (Deno.New_options dimports uri) w =
        (Pending, w')
  end /\
  sdk (invoke_all imports ms a w).1 = sdk a /\
  api (sdk (invoke_all imports ms a w).1) = api (sdk a) /\
  tx (sdk (invoke_all imports ms a w).1) = tx (sdk a) /\
  util (sdk (invoke_all imports ms a w).1) = util (sdk a).
Proof.
  split; [ | split].
  - unfold SDK_New, Async_bind, Async_ret.
    destruct (initialize imports uri w) as [[api0 | e | ] w']; cbn; auto.
  - unfold Deno.SDK_New, Async_bind, Async_ret.
    destruct (Deno.ApiPromise_create dimports _ w) as [[api0 | e | ] w'];
      cbn; auto.
  - destruct (invoke_all_sdk imports ms a w) as [Hs _].
    rewrite Hs. auto.
Qed.

End FacadeClaims.

(** ** Properties of the components behind the facade *)

Lemma first_of_kind_Some (k : EventKind) (l : list Event) (e : Event) :
  first_of_kind k l = Some e <->
  exists l1 l2 : list Event, l = (l1 ++ e :: l2)%list /\ kind e = k /\
                Forall (fun e' => kind e' <> k) l1.
Proof.
  induction l as [ | x l IH]; cbn.
  - split; [discriminate | ].
    intros (l1 & l2 & Hl & _). destruct l1; discriminate.
  - destruct (decide (kind x = k)) as [Hx | Hx].
    + split.
      * intros [= <-]. exists [], l. auto.
      * intros (l1 & l2 & Hl & He & Hall).
        destruct l1 as [ | y l1]; cbn in Hl.
        -- congruence.
        -- injection Hl as <- _. apply Forall_cons in Hall as [Hy _].
           contradiction.
    + rewrite IH. split.
      * intros (l1 & l2 & -> & He & Hall).
        exists (x :: l1), l2. repeat split; auto.
      * intros (l1 & l2 & Hl & He & Hall).
        destruct l1 as [ | y l1]; cbn in Hl.
        -- injection Hl as -> _. contradiction.
        -- injection Hl as <- ->. apply Forall_cons in Hall as [_ Hall].
           exists l1, l2. auto.
Qed.

Lemma first_of_kind_None (k : EventKind) (l : list Event) :
  first_of_kind k l = None <-> Forall (fun e => kind e <> k) l.
Proof.
  induction l as [ | x l IH]; cbn.
  - split; auto.
  - destruct (decide (kind x = k)) as [Hx | Hx].
    + split; [discriminate | ].
      intros Hall. apply Forall_cons in Hall as [Hn _]. contradiction.
    + rewrite IH. split.
      * intros Hall. constructor; assumption.
      * intros Hall. apply Forall_cons in Hall as [_ Hall]. exact Hall.
Qed.

Section ComponentFacts.

Context {number : Type}.
Variable hash_of :
  EncodedCall -> KeyringPair -> TransactionOptions number -> H256.

Implicit Types (c : Chain number) (call : EncodedCall) (kp : KeyringPair).
Implicit Types (options : TransactionOptions number) (policy : WaitFor).

(** The tracker never rejects, and what it resolves with is one of the two
    variants. *)
Lemma submit_explicit call kp options policy c :
  explicit_outcome (submit hash_of call kp options policy c).1.
Proof.
  unfold submit.
  destruct (first_terminal policy _) as [[b | why] | ]; cbn; auto.
  destruct (dispatch_error _); cbn; reflexivity.
Qed.

(** Once the node delivers a terminal status, the tracker resolves. *)
Lemma submit_settles call kp options policy c :
  is_Some (first_terminal policy
             (notifications c (hash_of call kp options))) ->
  fulfilled (submit hash_of call kp options policy c).1.
Proof.
  intros [t Ht]. unfold submit, fulfilled. rewrite Ht.
  destruct t as [b | why]; [destruct (dispatch_error _) | ]; cbn; eauto.
Qed.

(** Wrapping the success value keeps the outcome explicit and settled. *)
Lemma wrapped_explicit {A B} (f : A -> B)
    (p : Async (Chain number) (Result A TransactionFailed)) c :
  explicit_outcome (p c).1 ->
  explicit_outcome
    (Async_bind (fun r => Async_ret (map_ok f r)) p c).1.
Proof.
  unfold Async_bind, Async_ret.
  destruct (p c) as [[[v | e] | e | ] c']; cbn; auto.
Qed.

Lemma wrapped_fulfilled {A B} (f : A -> B)
    (p : Async (Chain number) (Result A TransactionFailed)) c :
  fulfilled (p c).1 ->
  fulfilled (Async_bind (fun r => Async_ret (map_ok f r)) p c).1.
Proof.
  unfold Async_bind, Async_ret, fulfilled.
  destruct (p c) as [[r | e | ] c']; cbn; intros [r' Hr]; try discriminate.
  eauto.
Qed.

(** A storage query answers or fails with a connection error, and leaves
    the chain as it was. *)
Lemma storage_query_read_only {A} (read : Chain number -> A)
    (conn : Connection) c :
  (storage_query read conn c).2 = c /\
  match (storage_query read conn c).1 with
  | Resolved v => v = read c
  | Rejected e => exists msg, e = ConnectionError msg
  | Pending => False
  end.
Proof.
  unfold storage_query. case_bool_decide; cbn; eauto.
Qed.

End ComponentFacts.

Section ComponentClaims.

Context {number : Type}.
Variable hash_of :
  EncodedCall -> KeyringPair -> TransactionOptions number -> H256.

Implicit Types (a : Account number (Chain number) Connection UtilsHandle).
Implicit Types (c : Chain number).

(** C1: over the transactions component of the specification, each of
    [balanceTransfer], [submitData] and [createApplicationKey] never ends in
    a rejected promise, and what it resolves with is either a success value
    or a [TransactionFailed], never both; and as soon as the node reports a
    terminal status for the submitted transaction under the stored wait
    policy, the operation does resolve, so the caller has a value to branch
    on. *)
Theorem submissions_settle_explicitly a c (dest key : string) (value : BN)
    (d : Data)
    (Htx : tx (sdk a) = tracker_transactions hash_of (api (sdk a))) :
  explicit_outcome (balanceTransfer a dest value c).1 /\
  explicit_outcome (Account_submitData a d c).1 /\
  explicit_outcome (Account_createApplicationKey a key c).1 /\
  (is_Some (first_terminal (waitFor a)
      (notifications c
         (hash_of (build "balances" "transferKeepAlive"
                     [ArgString dest; ArgBN value])
                  (keyring a) (buildOptions a)))) ->
   fulfilled (balanceTransfer a dest value c).1) /\
  (is_Some (first_terminal (waitFor a)
      (notifications c
         (hash_of (build "dataAvailability" "submitData" [data_arg d])
                  (keyring a) (buildOptions a)))) ->
   fulfilled (Account_submitData a d c).1) /\
  (is_Some (first_terminal (waitFor a)
      (notifications c
         (hash_of (build "dataAvailability" "createApplicationKey"
                     [ArgString key])
                  (keyring a) (buildOptions a)))) ->
   fulfilled (Account_createApplicationKey a key c).1).
Proof.
  unfold balanceTransfer, Account_submitData, Account_createApplicationKey.
  rewrite !Async_bind_ret, Htx. cbn.
  repeat split.
  - apply wrapped_explicit, submit_explicit.
  - apply wrapped_explicit, submit_explicit.
  - apply wrapped_explicit, submit_explicit.
  - intros H. apply wrapped_fulfilled, submit_settles, H.
  - intros H. apply wrapped_fulfilled, submit_settles, H.
  - intros H. apply wrapped_fulfilled, submit_settles, H.
Qed.

(** C2: over the transactions component of the specification, each of
    [balanceTransferNoWait], [submitDataNoWait] and
    [createApplicationKeyNoWait] resolves with the hash of the submitted
    transaction and nothing else, having only handed the transaction to the
    node; the hash is the same whatever the node reports or will report
    about inclusion, so the call does not wait for it. *)
Theorem no_wait_returns_submission_hash a c (dest key : string) (value : BN)
    (d : Data)
    (Htx : tx (sdk a) = tracker_transactions hash_of (api (sdk a))) :
  balanceTransferNoWait a dest value c =
    (Resolved (hash_of (build "balances" "transferKeepAlive"
                          [ArgString dest; ArgBN value])
                       (keyring a) (buildOptions a)),
     post (hash_of (build "balances" "transferKeepAlive"
                      [ArgString dest; ArgBN value])
                   (keyring a) (buildOptions a)) c) /\
  Account_submitDataNoWait a d c =
    (Resolved (hash_of (build "dataAvailability" "submitData" [data_arg d])
                       (keyring a) (buildOptions a)),
     post (hash_of (build "dataAvailability" "submitData" [data_arg d])
                   (keyring a) (buildOptions a)) c) /\
  Account_createApplicationKeyNoWait a key c =
    (Resolved (hash_of (build "dataAvailability" "createApplicationKey"
                          [ArgString key])
                       (keyring a) (buildOptions a)),
     post (hash_of (build "dataAvailability" "createApplicationKey"
                      [ArgString key])
                   (keyring a) (buildOptions a)) c) /\
  (forall c2,
     (balanceTransferNoWait a dest value c2).1 =
       (balanceTransferNoWait a dest value c).1 /\
     (Account_submitDataNoWait a d c2).1 =
       (Account_submitDataNoWait a d c).1 /\
     (Account_createApplicationKeyNoWait a key c2).1 =
       (Account_createApplicationKeyNoWait a key c).1).
Proof.
  unfold balanceTransferNoWait, Account_submitDataNoWait,
    Account_createApplicationKeyNoWait.
  repeat split; rewrite ?Async_bind_ret, Htx; reflexivity.
Qed.

(** C5: the event-kind lookup on the details of a successful transaction
    returns an event exactly when that event has the kind and no event
    before it in the list has, and it returns the empty indicator exactly
    when no event of the list has the kind; it is total, so it never
    fails. *)
Theorem findFirstEvent_first_match_or_none (k : EventKind)
    (details : TxResultDetails) :
  (forall e,
     findFirstEvent k details = Some e <->
     exists l1 l2 : list Event,
       events details = (l1 ++ e :: l2)%list /\ kind e = k /\
       Forall (fun e' => kind e' <> k) l1) /\
  (findFirstEvent k details = None <->
   Forall (fun e => kind e <> k) (events details)).
Proof.
  unfold findFirstEvent. split.
  - intros e. apply first_of_kind_Some.
  - apply first_of_kind_None.
Qed.

(** C6: over the utility queries of the specification, each of
    [getBalance], [getNonceState], [getNonceNode], [getAppKeys] and
    [getAppIds] leaves the [Account] (and with it the sdk) and the chain as
    they were, so the same call repeated at once gives the same answer; the
    call always settles, and if it fails, the failure is a connection
    error. *)
Theorem utility_queries_read_only (m : Method number) a c
    (Hq : is_query m = true) :
  (invoke (spec_imports hash_of) m a c).1.2 = a /\
  (invoke (spec_imports hash_of) m a c).2 = c /\
  invoke (spec_imports hash_of) m
    (invoke (spec_imports hash_of) m a c).1.2
    (invoke (spec_imports hash_of) m a c).2 =
  invoke (spec_imports hash_of) m a c /\
  unsettled (invoke (spec_imports hash_of) m a c).1.1 = false /\
  (forall e, fault_of (invoke (spec_imports hash_of) m a c).1.1 = Some e ->
             exists msg, e = ConnectionError msg).
Proof.
  assert (Hframe :
    (invoke (spec_imports hash_of) m a c).1.2 = a /\
    (invoke (spec_imports hash_of) m a c).2 = c /\
    unsettled (invoke (spec_imports hash_of) m a c).1.1 = false /\
    (forall e, fault_of (invoke (spec_imports hash_of) m a c).1.1 = Some e ->
               exists msg, e = ConnectionError msg)).
  { destruct m; try discriminate Hq; cbn [invoke];
      unfold awaited, getBalance, getNonceState, getNonceNode, getAppKeys,
        getAppIds, Async_bind, Async_ret; cbn;
      unfold system_account_query, util_getNonceState, util_getNonceNode,
        util_getAppKeys, util_getAppIds, storage_query;
      case_bool_decide; cbn; repeat split; try discriminate;
      intros e [= <-]; eauto. }
  destruct Hframe as (Ha & Hc & Hs & Hf).
  repeat split; auto.
  rewrite Ha, Hc. reflexivity.
Qed.

End ComponentClaims.

(** ** Worked examples on the local node *)

(** "MyData" submitted with the default policy is reported in block 7 with
    its events. *)
Example submitData_included :
  (Account_submitData demo_account (DataString "MyData") demo_chain).1 =
  Resolved (Ok {| submit_details :=
                    {| blockHash := 7%N; txHash := 11%N;
                       events := [demo_success; demo_event] |} |}).
Proof. vm_compute. reflexivity. Qed.

(** On a node that never reports, the waiting call never settles and the
    no-wait call still hands back the hash. *)
Example submitData_silent :
  (Account_submitData demo_account (DataString "MyData") silent_chain).1 =
    Pending /\
  (Account_submitDataNoWait demo_account (DataString "MyData")
     silent_chain).1 = Resolved 11%N.
Proof. split; vm_compute; reflexivity. Qed.

(** A dispatch error in the block turns the outcome into a failure. *)
Example dispatch_error_fails :
  dispatch_error [{| kind := ExtrinsicFailed; fields := [] |}] =
    Some "Runtime dispatch error" /\
  dispatch_error [demo_success; demo_event] = None.
Proof. split; reflexivity. Qed.

(** Options after the three setters. *)
Example buildOptions_after_setters :
  buildOptions (setTip (Some 2) (setAppId (Some 1) (setNonce (Some 9)
                  demo_account))) =
  <["tip" := OBN 2]> (<["app_id" := ONumber 1]> (<["nonce" := ONumber 9]> ∅)).
Proof. reflexivity. Qed.

(** The queries on a live connection, and on one the node does not hold. *)
Example queries_on_demo_chain :
  (getNonceState (spec_imports demo_hash) demo_account demo_chain).1 =
    Resolved 3 /\
  (getNonceNode (spec_imports demo_hash) demo_account demo_chain).1 =
    Resolved 4 /\
  (getAppKeys (spec_imports demo_hash) demo_account demo_chain).1 =
    Resolved [("My Key", 1)] /\
  (getAppIds (spec_imports demo_hash) demo_account demo_chain).1 =
    Resolved [1] /\
  (getBalance (spec_imports demo_hash) demo_account demo_chain).1 =
    Resolved {| free := 5; reserved := 1; frozen := 0; flags := 0 |} /\
  (getNonceState (spec_imports demo_hash)
     (Account_constructor
        (SDK_constructor (spec_imports demo_hash)
           {| socket := 5; endpoint := local_endpoint |}) alice)
     demo_chain).1 = Rejected (ConnectionError local_endpoint).
Proof. repeat split; vm_compute; reflexivity. Qed.

(** Connecting to the local endpoint opens the second socket; any other
    endpoint is refused and no instance is made. *)
Example New_on_demo_chain :
  match SDK_New (spec_imports demo_hash) local_endpoint demo_chain with
  | (Resolved s, c') =>
      api s = {| socket := 1; endpoint := local_endpoint |} /\
      utils_api (util s) = api s /\
      sockets c' = [0; 1]%nat
  | _ => False
  end /\
  (SDK_New (spec_imports demo_hash) "ws://example.invalid" demo_chain).1 =
    Rejected (ConnectionError "ws://example.invalid").
Proof. split; vm_compute; auto. Qed.

Lemma submissions_settle_explicitly_witness :
  tx (sdk demo_account) =
    tracker_transactions demo_hash (api (sdk demo_account)) /\
  explicit_outcome
    (Account_submitData demo_account (DataString "MyData") demo_chain).1 /\
  fulfilled
    (Account_submitData demo_account (DataString "MyData") demo_chain).1.
Proof.
  pose proof (submissions_settle_explicitly demo_hash demo_account demo_chain
                "5HGjWAeFDfFCWPsjFQdVV2Msvz2XtMktvgocEZcCj68kUMaw" "My Key"
                10 (DataString "MyData") eq_refl)
    as (_ & Hs & _ & _ & Hf & _).
  split; [reflexivity | split; [exact Hs | ]].
  apply Hf. vm_compute. eauto.
Defined.

Lemma no_wait_returns_submission_hash_witness :
  tx (sdk demo_account) =
    tracker_transactions demo_hash (api (sdk demo_account)) /\
  Account_submitDataNoWait demo_account (DataString "MyData") silent_chain =
    (Resolved 11%N, post 11%N silent_chain).
Proof.
  split; [reflexivity | ].
  destruct (no_wait_returns_submission_hash demo_hash demo_account
              silent_chain
              "5HGjWAeFDfFCWPsjFQdVV2Msvz2XtMktvgocEZcCj68kUMaw" "My Key"
              10 (DataString "MyData") eq_refl) as (_ & H & _).
  rewrite H. reflexivity.
Defined.

Lemma setters_overwrite_one_default_witness :
  Forall (fun m : Method Z => assigns m <> Some DNonce)
    [MSetTip (Some 2); MSubmitData (DataString "MyData"); MGetBalance] /\
  nonce (invoke_all (spec_imports demo_hash)
           [MSetTip (Some 2); MSubmitData (DataString "MyData"); MGetBalance]
           (setNonce (Some 9) demo_account) demo_chain).1 = Some 9.
Proof.
  assert (H : Forall (fun m : Method Z => assigns m <> Some DNonce)
                [MSetTip (Some 2); MSubmitData (DataString "MyData");
                 MGetBalance]).
  { repeat constructor; discriminate. }
  split; [exact H | ].
  exact (proj1 (proj2 (proj2 (proj2 (proj2
           (setters_overwrite_one_default (spec_imports demo_hash)
              demo_account demo_chain DNonce _ H)))) (Some 9))).
Defined.

Lemma findFirstEvent_first_match_or_none_witness :
  findFirstEvent DataSubmitted demo_details = Some demo_event /\
  findFirstEvent ApplicationKeyCreated demo_details = None.
Proof.
  split.
  - apply (proj1 (findFirstEvent_first_match_or_none DataSubmitted
                    demo_details)).
    exists [demo_success], []. repeat split.
    repeat constructor. discriminate.
  - apply (proj2 (findFirstEvent_first_match_or_none ApplicationKeyCreated
                    demo_details)).
    repeat constructor; discriminate.
Defined.

Lemma utility_queries_read_only_witness :
  is_query (MGetAppKeys : Method Z) = true /\
  (invoke (spec_imports demo_hash) MGetAppKeys demo_account demo_chain).1.2 =
    demo_account /\
  (invoke (spec_imports demo_hash) MGetAppKeys demo_account demo_chain).2 =
    demo_chain.
Proof.
  split; [reflexivity | ].
  destruct (utility_queries_read_only demo_hash MGetAppKeys demo_account
              demo_chain eq_refl) as (Ha & Hc & _).
  split; assumption.
Defined.

(** ** Further properties of [Account] *)

Section AccountFacts.

Context {number World ApiPromise Utils : Type}.
Variable imports : Imports number World ApiPromise Utils.

Implicit Types (this a b : Account number World ApiPromise Utils).
Implicit Types (w : World) (ms : list (Method number)).

(** An [Account] is its six fields. *)
Lemma Account_ext a b :
  waitFor a = waitFor b -> nonce a = nonce b -> appId a = appId b ->
  tip a = tip b -> sdk a = sdk b -> keyring a = keyring b -> a = b.
Proof.
  destruct a, b; cbn; intros; subst; reflexivity.
Qed.

(** One call changes the instance the way its assignment does. *)
Lemma invoke_replay_one (m : Method number) a w :
  (invoke imports m a w).1.2 = replay_one m a.
Proof.
  destruct m; cbn [invoke replay_one]; rewrite ?awaited_this; reflexivity.
Qed.

Lemma invoke_all_replay ms : forall a w,
  (invoke_all imports ms a w).1 = replay ms a.
Proof.
  induction ms as [ | m ms IH]; intros a w; [reflexivity | ].
  rewrite invoke_all_cons, IH, invoke_replay_one. reflexivity.
Qed.

Lemma replay_no_setter ms :
  Forall (fun m => assigns m = None) ms -> forall a, replay ms a = a.
Proof.
  induction 1 as [ | m ms Hm _ IH]; intros a; [reflexivity | ].
  cbn. change (replay ms (replay_one m a) = a).
  destruct m; try discriminate Hm; apply IH.
Qed.

(** X1: the options object can be read back: its [nonce], [app_id] and
    [tip] fields are the stored defaults, so two accounts hand over the
    same options exactly when their three stored defaults agree. *)
Theorem buildOptions_read_back a b :
  read_number (buildOptions a) "nonce" = nonce a /\
  read_number (buildOptions a) "app_id" = appId a /\
  read_BN (buildOptions a) "tip" = tip a /\
  (buildOptions a = buildOptions b <->
   nonce a = nonce b /\ appId a = appId b /\ tip a = tip b).
Proof.
  assert (Hread : forall c : Account number World ApiPromise Utils,
            read_number (buildOptions c) "nonce" = nonce c /\
            read_number (buildOptions c) "app_id" = appId c /\
            read_BN (buildOptions c) "tip" = tip c).
  { intros c. unfold read_number, read_BN.
    rewrite !buildOptions_lookup. unfold stored_field. cbn.
    destruct (nonce c), (appId c), (tip c); repeat split. }
  destruct (Hread a) as (Hn & Hi & Ht).
  split; [exact Hn | split; [exact Hi | split; [exact Ht | split]]].
  - intros Heq. destruct (Hread b) as (Hn' & Hi' & Ht').
    rewrite <- Hn, <- Hi, <- Ht, <- Hn', <- Hi', <- Ht', Heq.
    repeat split.
  - intros (En & Ei & Et). unfold buildOptions.
    rewrite En, Ei, Et. reflexivity.
Qed.

(** X2: the options object has one field per stored default that is not
    null, under the names [nonce], [app_id] and [tip], and no other field:
    between none and three fields in all. *)
Theorem buildOptions_fields a :
  dom (buildOptions a) = option_keys a /\
  size (buildOptions a) = option_count a /\
  (size (buildOptions a) <= 3)%nat.
Proof.
  unfold buildOptions, option_keys, option_count.
  destruct (nonce a) as [n | ], (appId a) as [i | ], (tip a) as [t | ];
    (split; [ | split ]);
    rewrite ?dom_insert_L, ?dom_empty_L;
    rewrite ?map_size_insert, ?lookup_insert_ne, ?lookup_empty,
      ?map_size_empty by discriminate;
    cbn; try lia; set_solver.
Qed.

(** X3: the setters compose as assignments do: a second call of the same
    setter replaces the first, setters of different defaults can be called
    in either order, and storing the value already stored changes
    nothing. *)
Theorem setters_compose a :
  (forall v1 v2, setNonce v2 (setNonce v1 a) = setNonce v2 a) /\
  (forall v1 v2, setAppId v2 (setAppId v1 a) = setAppId v2 a) /\
  (forall v1 v2, setTip v2 (setTip v1 a) = setTip v2 a) /\
  (forall v1 v2, setWaitFor v2 (setWaitFor v1 a) = setWaitFor v2 a) /\
  (forall n i, setNonce n (setAppId i a) = setAppId i (setNonce n a)) /\
  (forall n t, setNonce n (setTip t a) = setTip t (setNonce n a)) /\
  (forall n p, setNonce n (setWaitFor p a) = setWaitFor p (setNonce n a)) /\
  (forall i t, setAppId i (setTip t a) = setTip t (setAppId i a)) /\
  (forall i p, setAppId i (setWaitFor p a) = setWaitFor p (setAppId i a)) /\
  (forall t p, setTip t (setWaitFor p a) = setWaitFor p (setTip t a)) /\
  setNonce (nonce a) a = a /\ setAppId (appId a) a = a /\
  setTip (tip a) a = a /\ setWaitFor (waitFor a) a = a.
Proof.
  repeat match goal with |- _ /\ _ => split end;
    intros; apply Account_ext; reflexivity.
Qed.

(** X4: on the options object a setter acts on its own field only: a value
    that is not null is written under the field's name, over whatever was
    there, and [null] removes the field; the other fields stay. *)
Theorem setters_update_options a :
  (forall n, buildOptions (setNonce (Some n) a) =
             <["nonce" := ONumber n]> (buildOptions a)) /\
  buildOptions (setNonce None a) = delete "nonce" (buildOptions a) /\
  (forall n, buildOptions (setAppId (Some n) a) =
             <["app_id" := ONumber n]> (buildOptions a)) /\
  buildOptions (setAppId None a) = delete "app_id" (buildOptions a) /\
  (forall t, buildOptions (setTip (Some t) a) =
             <["tip" := OBN t]> (buildOptions a)) /\
  buildOptions (setTip None a) = delete "tip" (buildOptions a).
Proof.
  repeat match goal with |- _ /\ _ => split end; intros;
    apply map_eq; intros k;
    rewrite ?lookup_insert, ?lookup_delete, !buildOptions_lookup;
    unfold stored_field; cbn;
    repeat case_decide; subst; try reflexivity; try discriminate;
    congruence.
Qed.

(** X6: calls other than the setters never change the instance; in
    particular a submission does not advance the stored nonce, and the
    submission after it is made with the same wait policy, signer and
    options. *)
Theorem calls_keep_stored_defaults ms a w
    (Hms : Forall (fun m => assigns m = None) ms) :
  (invoke_all imports ms a w).1 = a /\
  (forall (dest key : string) (value : BN) (d : Data) w',
     balanceTransfer (invoke_all imports ms a w).1 dest value w' =
       transferKeepAlive (balances (tx (sdk a)))
         dest value (waitFor a) (keyring a) (buildOptions a) w' /\
     Account_submitData (invoke_all imports ms a w).1 d w' =
       submitData (dataAvailability (tx (sdk a)))
         d (waitFor a) (keyring a) (buildOptions a) w' /\
     Account_createApplicationKey (invoke_all imports ms a w).1 key w' =
       createApplicationKey (dataAvailability (tx (sdk a)))
         key (waitFor a) (keyring a) (buildOptions a) w').
Proof.
  assert (Ha : (invoke_all imports ms a w).1 = a).
  { rewrite invoke_all_replay. apply replay_no_setter, Hms. }
  split; [exact Ha | ].
  intros dest key value d w'. rewrite Ha.
  unfold balanceTransfer, Account_submitData, Account_createApplicationKey.
  rewrite !Async_bind_ret. repeat split.
Qed.

(** X7: the stored defaults do not reach the calls that take none: the
    wait policy has no effect on the three no-wait submissions, and no
    setter call has any effect on the five queries, on [address()] or on
    [oneAvail()]. *)
Theorem defaults_do_not_reach_other_calls a w (m : Method number) :
  (forall v (dest key : string) (value : BN) (d : Data),
     balanceTransferNoWait (setWaitFor v a) dest value w =
       balanceTransferNoWait a dest value w /\
     Account_submitDataNoWait (setWaitFor v a) d w =
       Account_submitDataNoWait a d w /\
     Account_createApplicationKeyNoWait (setWaitFor v a) key w =
       Account_createApplicationKeyNoWait a key w) /\
  getBalance imports (replay_one m a) w = getBalance imports a w /\
  getNonceState imports (replay_one m a) w = getNonceState imports a w /\
  getNonceNode imports (replay_one m a) w = getNonceNode imports a w /\
  getAppKeys imports (replay_one m a) w = getAppKeys imports a w /\
  getAppIds imports (replay_one m a) w = getAppIds imports a w /\
  Account_address (replay_one m a) = Account_address a /\
  Account_oneAvail (replay_one m a) = Account_oneAvail a.
Proof.
  split; [intros; repeat split | ].
  destruct m; repeat split.
Qed.

(** X8: [address()] is the address of the key pair the account was
    constructed with, and it stays that through any sequence of calls,
    setters included. *)
Theorem address_is_stable ms (sdk0 : SDK number World ApiPromise Utils)
    (keyring0 : KeyringPair) a w :
  Account_address (Account_constructor sdk0 keyring0) = address keyring0 /\
  Account_address (invoke_all imports ms a w).1 = Account_address a /\
  Account_address
    (invoke_all imports ms (Account_constructor sdk0 keyring0) w).1 =
    address keyring0.
Proof.
  unfold Account_address.
  destruct (invoke_all_sdk imports ms a w) as [_ Hk].
  destruct (invoke_all_sdk imports ms (Account_constructor sdk0 keyring0) w)
    as [_ Hk'].
  rewrite Hk, Hk'. repeat split.
Qed.

(** X9: [Account.alice(sdk)] is an account on the given sdk that signs with
    the sr25519 pair derived from [//Alice]; until a setter is called, and
    whatever else was called before, its submissions wait for block
    inclusion and pass an empty options object. *)
Theorem alice_submits_with_defaults
    (addFromUri : Keyring -> string -> KeyringPair)
    (sdk0 : SDK number World ApiPromise Utils) ms w
    (Hms : Forall (fun m => assigns m = None) ms) :
  sdk (Account_alice addFromUri sdk0) = sdk0 /\
  keyring (Account_alice addFromUri sdk0) =
    addFromUri {| keyring_type := "sr25519" |} "//Alice" /\
  (forall (dest key : string) (value : BN) (d : Data) w',
     balanceTransfer
       (invoke_all imports ms (Account_alice addFromUri sdk0) w).1
       dest value w' =
       transferKeepAlive (balances (tx sdk0)) dest value BlockInclusion
         (addFromUri {| keyring_type := "sr25519" |} "//Alice") ∅ w' /\
     Account_submitData
       (invoke_all imports ms (Account_alice addFromUri sdk0) w).1 d w' =
       submitData (dataAvailability (tx sdk0)) d BlockInclusion
         (addFromUri {| keyring_type := "sr25519" |} "//Alice") ∅ w' /\
     Account_submitDataNoWait
       (invoke_all imports ms (Account_alice addFromUri sdk0) w).1 d w' =
       submitDataNoWait (dataAvailability (tx sdk0)) d
         (addFromUri {| keyring_type := "sr25519" |} "//Alice") ∅ w' /\
     Account_createApplicationKey
       (invoke_all imports ms (Account_alice addFromUri sdk0) w).1 key w' =
       createApplicationKey (dataAvailability (tx sdk0)) key BlockInclusion
         (addFromUri {| keyring_type := "sr25519" |} "//Alice") ∅ w').
Proof.
  split; [reflexivity | split; [reflexivity | ]].
  intros dest key value d w'.
  rewrite invoke_all_replay, (replay_no_setter ms Hms).
  unfold balanceTransfer, Account_submitData, Account_submitDataNoWait,
    Account_createApplicationKey.
  rewrite !Async_bind_ret. repeat split.
Qed.

End AccountFacts.

(** X5: after any sequence of calls the instance is what the setter calls
    of the sequence, applied in order, make of it; what the node answered,
    and whether the asynchronous calls succeeded, failed or never settled,
    has no influence on it. *)
Theorem session_replays_setters {number World ApiPromise Utils : Type}
    (imports imports' : Imports number World ApiPromise Utils)
    (ms : list (Method number))
    (a : Account number World ApiPromise Utils) (w w' : World) :
  (invoke_all imports ms a w).1 = replay ms a /\
  (invoke_all imports' ms a w').1 = (invoke_all imports ms a w).1.
Proof.
  rewrite !invoke_all_replay. split; reflexivity.
Qed.

Section AccountQueries.

Context {number World ApiPromise Utils : Type}.
Variable imports : Imports number World ApiPromise Utils.

Implicit Types (a : Account number World ApiPromise Utils) (w : World).


End AccountQueries.

Lemma calls_keep_stored_defaults_witness :
  Forall (fun m : Method Z => assigns m = None)
    [MSubmitData (DataString "MyData"); MGetBalance; MAddress] /\
  (invoke_all (spec_imports demo_hash)
     [MSubmitData (DataString "MyData"); MGetBalance; MAddress]
     (setNonce (Some 9) demo_account) demo_chain).1 =
  setNonce (Some 9) demo_account.
Proof.
  assert (H : Forall (fun m : Method Z => assigns m = None)
                [MSubmitData (DataString "MyData"); MGetBalance; MAddress]).
  { repeat constructor. }
  split; [exact H | ].
  exact (proj1 (calls_keep_stored_defaults (spec_imports demo_hash) _
                  (setNonce (Some 9) demo_account) demo_chain H)).
Defined.

Lemma alice_submits_with_defaults_witness :
  Forall (fun m : Method Z => assigns m = None)
    [MGetNonceState; MSubmitDataNoWait (DataString "MyData")] /\
  keyring (Account_alice (fun _ _ => alice) demo_sdk) = alice /\
  Account_submitData
    (invoke_all (spec_imports demo_hash)
       [MGetNonceState; MSubmitDataNoWait (DataString "MyData")]
       (Account_alice (fun _ _ => alice) demo_sdk) demo_chain).1
    (DataString "MyData") demo_chain =
  submitData (dataAvailability (tx demo_sdk)) (DataString "MyData")
    BlockInclusion alice ∅ demo_chain.
Proof.
  assert (H : Forall (fun m : Method Z => assigns m = None)
                [MGetNonceState; MSubmitDataNoWait (DataString "MyData")]).
  { repeat constructor. }
  split; [exact H | ].
  destruct (alice_submits_with_defaults (spec_imports demo_hash)
              (fun _ _ => alice) demo_sdk _ demo_chain H)
    as (_ & Hk & Hops).
  split; [exact Hk | ].
  exact (proj1 (proj2 (Hops "" "" 0 (DataString "MyData") demo_chain))).
Defined.

Lemma buildOptions_read_back_witness :
  (nonce (setNonce (Some 9) demo_account) =
     nonce (setWaitFor BlockFinalization (setNonce (Some 9) demo_account)) /\
   appId (setNonce (Some 9) demo_account) =
     appId (setWaitFor BlockFinalization (setNonce (Some 9) demo_account)) /\
   tip (setNonce (Some 9) demo_account) =
     tip (setWaitFor BlockFinalization (setNonce (Some 9) demo_account))) /\
  buildOptions (setNonce (Some 9) demo_account) =
    buildOptions
      (setWaitFor BlockFinalization (setNonce (Some 9) demo_account)) /\
  read_number (buildOptions (setNonce (Some 9) demo_account)) "nonce" =
    Some 9.
Proof.
  pose proof (buildOptions_read_back (setNonce (Some 9) demo_account)
                (setWaitFor BlockFinalization
                   (setNonce (Some 9) demo_account)))
    as (Hn & _ & _ & Hiff).
  assert (H : nonce (setNonce (Some 9) demo_account) =
                nonce (setWaitFor BlockFinalization
                         (setNonce (Some 9) demo_account)) /\
              appId (setNonce (Some 9) demo_account) =
                appId (setWaitFor BlockFinalization
                         (setNonce (Some 9) demo_account)) /\
              tip (setNonce (Some 9) demo_account) =
                tip (setWaitFor BlockFinalization
                       (setNonce (Some 9) demo_account))).
  { repeat split. }
  split; [exact H | split; [exact (proj2 Hiff H) | exact Hn]].
Defined.
